(** * PluginFile: the plugin file type of the Phaser loader

    A shallow embedding of [src/loader/filetypes/PluginFile.js]: the
    [PluginFile] constructor, its [onProcess] method and the [plugin]
    callback registered with the [FileTypesManager], together with the
    properties of the loader's specification that concern them.

    The code runs in a browser.  What it touches there is kept in an explicit
    host state: the global object [window], the children of [document.head]
    and the calls made on collaborators.  Code the loader does not own (the
    text of a loaded script, the [register] method of a plugin) is a parameter
    of the development. *)

From Stdlib Require Import List Bool.
From stdpp Require Import base option list gmap strings.
Import ListNotations.

Local Open Scope string_scope.
Local Open Scope list_scope.
Set Warnings "-register-all".

(** ** JavaScript values *)

(** The values the loader's arguments range over.  A function is known by an
    identifier; like every JavaScript function it is an object too and carries
    its own properties (the static members of a class). *)
Inductive value : Type :=
| VUndefined
| VNull
| VBool (b : bool)
| VStr (s : string)
| VObj (props : list (string * value))
| VArr (items : list value)
| VFun (id : nat) (props : list (string * value)).

(** What code throws: a [TypeError] of the language, the error of the base
    [File] constructor, or whatever value foreign code raises. *)
Inductive exn : Type :=
| TypeError
| ConfigurationError
| Thrown (v : value).

Fixpoint lookup_prop (props : list (string * value)) (name : string)
  : option value :=
  match props with
  | [] => None
  | (k, v) :: rest => if String.eqb k name then Some v else lookup_prop rest name
  end.

Definition typeof_function (v : value) : bool :=
  match v with VFun _ _ => true | _ => false end.

Definition is_undefined (v : value) : bool :=
  match v with VUndefined => true | _ => false end.

(** [Array.prototype.join] on already converted elements. *)
Fixpoint join (sep : string) (parts : list string) : string :=
  match parts with
  | [] => ""
  | [p] => p
  | p :: rest => p +:+ sep +:+ join sep rest
  end.

(** The behaviour of the code the loader does not own. *)
Record Foreign : Type := {
  (** the value of [require('../../boot/PluginManager')] *)
  PluginManager : value;
  (** evaluating the text of a script element inserted in the document: the
      new global object, and the exception if the insertion raised one *)
  run_script : string -> gmap string value -> gmap string value * option exn;
  (** calling function [id] with a receiver and arguments *)
  call_function :
    nat -> value -> list value -> gmap string value ->
    gmap string value * option exn;
  (** [Function.prototype.toString] of function [id] *)
  function_text : nat -> string;
  (** the slots of the global object the host does not let a script
      overwrite ([document], [location], ...) *)
  read_only : string -> bool
}.

(** The slots of the global object the language itself makes read-only. *)
Definition language_constant (name : string) : bool :=
  String.eqb name "undefined" || String.eqb name "NaN"
  || String.eqb name "Infinity".

(** A plain object, as [utils/object/IsPlainObject] tells it from the other
    values: object literals are, arrays and functions are not. *)
Definition IsPlainObject (v : value) : bool :=
  match v with VObj _ => true | _ => false end.

(** Modelled from the spec: [utils/object/GetFastValue] is not among the
    sources.  The spec gives every optional field of a configuration record a
    default, used when the field is absent; a field holding [undefined] counts
    as absent. *)
Definition GetFastValue (source : value) (name : string) (defaultValue : value)
  : value :=
  match source with
  | VObj props =>
      match lookup_prop props name with
      | Some v => if is_undefined v then defaultValue else v
      | None => defaultValue
      end
  | _ => defaultValue
  end.

(** ** The host state *)

(** The configuration handed to the base [File] constructor. *)
Record FileConfig : Type := {
  cfg_type : string;
  cfg_cache : bool;
  cfg_extension : value;
  cfg_responseType : string;
  cfg_key : value;
  cfg_url : value;
  cfg_xhrSettings : value
}.

(** A [<script>] element. *)
Record ScriptElement : Type := {
  el_language : string;
  el_type : string;
  el_defer : bool;
  el_text : string
}.

(** [CONST.FILE_*]: the states of a file. *)
Inductive FileState : Type :=
| FILE_PENDING
| FILE_LOADING
| FILE_PROCESSING
| FILE_COMPLETE
| FILE_ERRORED
| FILE_DESTROYED.

(** The request object the transport leaves on a file once the transfer has
    succeeded. *)
Record XHR : Type := { responseText : string }.

(** A file of the loader: the fields of [this] the plugin file type reads or
    writes, and those the base constructor fills from the configuration. *)
Record File : Type := {
  file_loader : nat;
  file_type : string;
  file_cache : bool;
  file_key : string;
  file_url : value;
  file_xhrSettings : value;
  file_xhrLoader : option XHR;
  file_state : FileState;
  file_data : option ScriptElement
}.

(** The calls the code makes on its collaborators, in program order. *)
Inductive event : Type :=
| EvSetGlobal (name : string) (v : value)
| EvCall (f : value) (this : value) (args : list value)
| EvNewFile (loader : nat) (cfg : FileConfig)
| EvProcessComplete (key : string).

Record Host : Type := {
  window : gmap string value;
  head : list ScriptElement;
  log : list event
}.

(** The loader, seen from the file type: its identity and the files added to
    it. *)
Record Loader : Type := {
  loader_id : nat;
  loader_list : list File
}.

(** ** Computations that change a state and may throw *)

Inductive completion (A : Type) : Type :=
| Normal (a : A)
| Throw (e : exn).
Arguments Normal {A} a.
Arguments Throw {A} e.

Definition M (S A : Type) : Type := S -> S * completion A.

Definition ret {S A} (a : A) : M S A := fun s => (s, Normal a).

Definition throw {S A} (e : exn) : M S A := fun s => (s, Throw e).

Definition bind {S A B} (m : M S A) (k : A -> M S B) : M S B :=
  fun s =>
    match m s with
    | (s', Normal a) => k a s'
    | (s', Throw e) => (s', Throw e)
    end.

Definition lift {S A} (c : completion A) : M S A := fun s => (s, c).

Definition gets {S A} (f : S -> A) : M S A := fun s => (s, Normal (f s)).

Definition modify {S} (f : S -> S) : M S unit := fun s => (f s, Normal tt).

Declare Scope js_scope.
Delimit Scope js_scope with js.
Notation "x <- m ;; k" := (bind m (fun x => k))
  (at level 100, m at next level, right associativity) : js_scope.
Notation "m ;; k" := (bind m (fun _ => k))
  (at level 100, right associativity) : js_scope.
Local Open Scope js_scope.

(** Running a computation on one component of a pair of states. *)
Definition on_snd {T S A} (m : M S A) : M (T * S) A :=
  fun ts =>
    match m (snd ts) with
    | (s', r) => ((fst ts, s'), r)
    end.

(** Field updates. *)
Definition with_window (w : gmap string value) (h : Host) : Host :=
  {| window := w; head := head h; log := log h |}.

Definition with_head (els : list ScriptElement) (h : Host) : Host :=
  {| window := window h; head := els; log := log h |}.

Definition with_log (evs : list event) (h : Host) : Host :=
  {| window := window h; head := head h; log := evs |}.

Definition with_state (s : FileState) (f : File) : File :=
  {| file_loader := file_loader f; file_type := file_type f;
     file_cache := file_cache f; file_key := file_key f;
     file_url := file_url f; file_xhrSettings := file_xhrSettings f;
     file_xhrLoader := file_xhrLoader f; file_state := s;
     file_data := file_data f |}.

Definition with_data (d : option ScriptElement) (f : File) : File :=
  {| file_loader := file_loader f; file_type := file_type f;
     file_cache := file_cache f; file_key := file_key f;
     file_url := file_url f; file_xhrSettings := file_xhrSettings f;
     file_xhrLoader := file_xhrLoader f; file_state := file_state f;
     file_data := d |}.

Definition with_xhrLoader (x : option XHR) (f : File) : File :=
  {| file_loader := file_loader f; file_type := file_type f;
     file_cache := file_cache f; file_key := file_key f;
     file_url := file_url f; file_xhrSettings := file_xhrSettings f;
     file_xhrLoader := x; file_state := file_state f;
     file_data := file_data f |}.

Definition with_list (fs : list File) (l : Loader) : Loader :=
  {| loader_id := loader_id l; loader_list := fs |}.

(** ** The plugin file type *)

Section WithForeign.

Variable env : Foreign.

(** [ToString], as used by property access [window[key]] and by [+] on
    strings. *)
Fixpoint ToString (v : value) : string :=
  match v with
  | VUndefined => "undefined"
  | VNull => "null"
  | VBool true => "true"
  | VBool false => "false"
  | VStr s => s
  | VObj _ => "[object Object]"
  | VArr items =>
      join ","
        (map (fun x =>
                match x with
                | VUndefined | VNull => ""
                | _ => ToString x
                end) items)
  | VFun id _ => function_text env id
  end.

(** *** Access to the host *)

Definition log_event (ev : event) : M Host unit :=
  modify (fun h => with_log (log h ++ [ev]) h).

(** Whether the slot [name] of the global object takes an assignment. *)
Definition takes_assignment (name : string) : bool :=
  negb (language_constant name || read_only env name).

(** [window[name] = v].  The file is not in strict mode: on a read-only slot
    the assignment throws nothing and the slot keeps what it holds. *)
Definition window_set (name : string) (v : value) : M Host unit :=
  log_event (EvSetGlobal name v) ;;
  if takes_assignment name
  then modify (fun h => with_window (<[name := v]> (window h)) h)
  else ret tt.

(** [window[name]] *)
Definition window_get (name : string) : M Host value :=
  gets (fun h => default VUndefined (window h !! name)).

(** [v.name]: reading a property of [undefined] or [null] throws; the other
    values answer with their own property or [undefined]. *)
Definition get_property (v : value) (name : string) : completion value :=
  match v with
  | VUndefined | VNull => Throw TypeError
  | VObj props | VFun _ props =>
      Normal (default VUndefined (lookup_prop props name))
  | VBool _ | VStr _ | VArr _ => Normal VUndefined
  end.

(** [this.f(args)]: calling what is not a function throws; a function runs as
    the foreign code says. *)
Definition call_method (f this : value) (args : list value) : M Host unit :=
  match f with
  | VFun id _ =>
      log_event (EvCall f this args) ;;
      (fun h =>
         match call_function env id this args (window h) with
         | (w, None) => (with_window w h, Normal tt)
         | (w, Some e) => (with_window w h, Throw e)
         end)
  | _ => throw TypeError
  end.

(** [window[name].register(PluginManager)] *)
Definition window_register (name : string) : M Host unit :=
  plugin <- window_get name ;;
  register <- lift (get_property plugin "register") ;;
  call_method register plugin [PluginManager env].

(** [document.createElement('script')] *)
Definition createElement_script : ScriptElement :=
  {| el_language := ""; el_type := ""; el_defer := false; el_text := "" |}.

(** [document.head.appendChild(el)]: the element joins the children of the
    head and its text is evaluated on the spot. *)
Definition head_appendChild (el : ScriptElement) : M Host unit :=
  fun h =>
    match run_script env (el_text el) (window h) with
    | (w, None) => (with_window w (with_head (head h ++ [el]) h), Normal tt)
    | (w, Some e) => (with_window w (with_head (head h ++ [el]) h), Throw e)
    end.

(** *** The base class *)

(** Modelled from the spec: the base [File] constructor ([loader/File.js] is
    not among the sources).  Construction fails with a configuration error
    when the key is missing or empty (the key is a non-empty string); the
    locator is the given url or, when that is absent, the key, a dot and the
    extension; the transfer options are kept as given; a unit starts
    [Pending], except that one built from a callable in place of a locator is
    [Complete] at once. *)
Definition File_call (loader : nat) (fileConfig : FileConfig) : M Host File :=
  log_event (EvNewFile loader fileConfig) ;;
  match cfg_key fileConfig with
  | VStr key =>
      if String.eqb key "" then throw ConfigurationError
      else
        ret {| file_loader := loader;
               file_type := cfg_type fileConfig;
               file_cache := cfg_cache fileConfig;
               file_key := key;
               file_url :=
                 match cfg_url fileConfig with
                 | VUndefined | VNull =>
                     VStr (key +:+ "." +:+ ToString (cfg_extension fileConfig))
                 | url => url
                 end;
               file_xhrSettings := cfg_xhrSettings fileConfig;
               file_xhrLoader := None;
               file_state :=
                 if typeof_function (cfg_url fileConfig)
                 then FILE_COMPLETE else FILE_PENDING;
               file_data := None |}
  | _ => throw ConfigurationError
  end.

(** Modelled from the spec: [File.onProcessComplete] (not among the sources)
    moves the unit from [Processing] to [Complete] and notifies the driver of
    the completion. *)
Definition onProcessComplete : M (File * Host) unit :=
  modify (fun s => (with_state FILE_COMPLETE (fst s), snd s)) ;;
  key <- gets (fun s => file_key (fst s)) ;;
  on_snd (log_event (EvProcessComplete key)).

(** *** [PluginFile] *)

(** Lines 51 to 61 of the constructor: the key, url, xhrSettings and
    extension in force once a configuration object has been unpacked. *)
Definition PluginFile_arguments (key url xhrSettings : value)
  : value * value * value * value :=
  let extension := VStr "js" in
  if IsPlainObject key then
    let config := key in
    (GetFastValue config "key" VUndefined,
     GetFastValue config "url" VUndefined,
     GetFastValue config "xhrSettings" VUndefined,
     GetFastValue config "extension" extension)
  else (key, url, xhrSettings, extension).

(** [new PluginFile(loader, key, url, xhrSettings)] *)
Definition PluginFile (loader : nat) (key url xhrSettings : value)
  : M Host File :=
  let '(key, url, xhrSettings, extension) :=
    PluginFile_arguments key url xhrSettings in
  (if typeof_function url then
     window_set (ToString key) url ;;
     window_register (ToString key)
   else ret tt) ;;
  let fileConfig :=
    {| cfg_type := "script";
       cfg_cache := false;
       cfg_extension := extension;
       cfg_responseType := "text";
       cfg_key := key;
       cfg_url := url;
       cfg_xhrSettings := xhrSettings |} in
  File_call loader fileConfig.

(** [this.data.field = ...]: an update of the element held in [this.data]. *)
Definition update_data (g : ScriptElement -> ScriptElement)
  : M (File * Host) unit :=
  fun s =>
    match file_data (fst s) with
    | Some el => ((with_data (Some (g el)) (fst s), snd s), Normal tt)
    | None => (s, Throw TypeError)
    end.

(** [this.xhrLoader.responseText]: there is no request object before the
    transfer has completed. *)
Definition this_responseText : M (File * Host) string :=
  fun s =>
    match file_xhrLoader (fst s) with
    | Some xhr => (s, Normal (responseText xhr))
    | None => (s, Throw TypeError)
    end.

(** [PluginFile.prototype.onProcess], run on [this] and the host. *)
Definition onProcess : M (File * Host) unit :=
  modify (fun s => (with_state FILE_PROCESSING (fst s), snd s)) ;;
  modify (fun s => (with_data (Some createElement_script) (fst s), snd s)) ;;
  update_data (fun el =>
    {| el_language := "javascript"; el_type := el_type el;
       el_defer := el_defer el; el_text := el_text el |}) ;;
  update_data (fun el =>
    {| el_language := el_language el; el_type := "text/javascript";
       el_defer := el_defer el; el_text := el_text el |}) ;;
  update_data (fun el =>
    {| el_language := el_language el; el_type := el_type el;
       el_defer := false; el_text := el_text el |}) ;;
  text <- this_responseText ;;
  update_data (fun el =>
    {| el_language := el_language el; el_type := el_type el;
       el_defer := el_defer el; el_text := text |}) ;;
  data <- gets (fun s => file_data (fst s)) ;;
  match data with
  | Some el => on_snd (head_appendChild el)
  | None => throw TypeError
  end ;;
  key <- gets (fun s => file_key (fst s)) ;;
  on_snd (window_register key) ;;
  onProcessComplete.

(** *** The [plugin] method of the loader *)

(** Modelled from the spec: [addFile] of the driver (not among the sources)
    enqueues a constructed unit. *)
Definition addFile (f : File) : M (Loader * Host) unit :=
  modify (fun s => (with_list (loader_list (fst s) ++ [f]) (fst s), snd s)).

(** The loop over an array of configuration objects: each element alone is
    handed to the constructor. *)
Fixpoint plugin_each (items : list value) : M (Loader * Host) unit :=
  match items with
  | [] => ret tt
  | item :: rest =>
      this <- gets (fun s => loader_id (fst s)) ;;
      file <- on_snd (PluginFile this item VUndefined VUndefined) ;;
      addFile file ;;
      plugin_each rest
  end.

(** The callback registered as [plugin]; it answers the loader. *)
Definition plugin (key url xhrSettings : value) : M (Loader * Host) Loader :=
  (match key with
   | VArr items => plugin_each items
   | _ =>
       this <- gets (fun s => loader_id (fst s)) ;;
       file <- on_snd (PluginFile this key url xhrSettings) ;;
       addFile file
   end) ;;
  gets fst.

(** *** Vocabulary of the statements *)

(** The script element [onProcess] builds for a payload. *)
Definition script_element (text : string) : ScriptElement :=
  {| el_language := "javascript"; el_type := "text/javascript";
     el_defer := false; el_text := text |}.

(** The events a call of [register] appends: none, or one call. *)
Definition register_events (name : string) (h : Host) : list event :=
  let plugin := default VUndefined (window h !! name) in
  match get_property plugin "register" with
  | Normal (VFun id ps) => [EvCall (VFun id ps) plugin [PluginManager env]]
  | _ => []
  end.


(** The configuration the constructor builds from the arguments in force. *)
Definition fileConfig_of (arguments : value * value * value * value)
  : FileConfig :=
  let '(key, url, xhrSettings, extension) := arguments in
  {| cfg_type := "script";
     cfg_cache := false;
     cfg_extension := extension;
     cfg_responseType := "text";
     cfg_key := key;
     cfg_url := url;
     cfg_xhrSettings := xhrSettings |}.

(** The host after [window[name] = v]. *)
Definition after_window_set (name : string) (v : value) (h : Host) : Host :=
  with_window
    (if takes_assignment name then <[name := v]> (window h) else window h)
    (with_log (log h ++ [EvSetGlobal name v]) h).

(** Telling the calls of foreign functions from the other events. *)
Definition is_call (ev : event) : bool :=
  match ev with EvCall _ _ _ => true | _ => false end.

Definition is_completion (ev : event) : bool :=
  match ev with EvProcessComplete _ => true | _ => false end.

(** How many units one call of [plugin] can add at most. *)
Definition requested (key : value) : nat :=
  match key with VArr items => length items | _ => 1 end.

(** One unit per configuration object: each is built by the constructor from
    its own object, with no url and no xhrSettings argument, in the host the
    previous constructions left. *)
Inductive constructs (loader : nat)
  : Host -> list value -> list File -> Host -> Prop :=
| constructs_nil (h : Host) : constructs loader h [] [] h
| constructs_cons (h h1 h2 : Host) (config : value) (file : File)
    (configs : list value) (files : list File) :
    PluginFile loader config VUndefined VUndefined h = (h1, Normal file) ->
    constructs loader h1 configs files h2 ->
    constructs loader h (config :: configs) (file :: files) h2.

End WithForeign.

(** ** A sample host *)

Module Sample.

(** A plugin class with a static [register]. *)
Definition plug : value := VFun 1 [("register", VFun 2 [])].

(** A plugin class whose [register] throws. *)
Definition faulty : value := VFun 3 [("register", VFun 4 [])].


Definition failure : exn := Thrown (VStr "register failed").

(** Scripts that bind a plugin under a name, one that raises, and function 4
    that throws; everything else runs and leaves the globals alone. *)
Definition browser : Foreign :=
  {| PluginManager := VObj [("plugins", VArr [])];
     run_script := fun text w =>
       if String.eqb text "fx1 = class { static register () {} }"
       then (<["fx1" := plug]> w, None)
       else if String.eqb text "fx2 = class { static register () { throw } }"
       then (<["fx2" := faulty]> w, None)
       else if String.eqb text "throw 0"
       then (w, Some (Thrown (VStr "0")))
       else (w, None);
     call_function := fun id this args w =>
       match id with
       | 4 => (w, Some failure)
       | _ => (w, None)
       end;
     function_text := fun _ => "function () { [native code] }";
     read_only := fun name =>
       String.eqb name "document" || String.eqb name "location" |}.

Definition empty_host : Host := {| window := ∅; head := []; log := [] |}.

(** A unit as the transport leaves it after a successful transfer. *)
Definition loaded (key payload : string) : File :=
  {| file_loader := 0; file_type := "script"; file_cache := false;
     file_key := key; file_url := VStr (key +:+ ".js");
     file_xhrSettings := VUndefined;
     file_xhrLoader := Some {| responseText := payload |};
     file_state := FILE_LOADING; file_data := None |}.

Definition fx1 : File := loaded "fx1" "fx1 = class { static register () {} }".

Definition fx2 : File :=
  loaded "fx2" "fx2 = class { static register () { throw } }".

End Sample.

(** * Properties *)

(** ** What [window[name].register(PluginManager)] does *)

Lemma window_register_unfold (env : Foreign) (name : string) (h : Host) :
  window_register env name h =
    let plugin := default VUndefined (window h !! name) in
    match get_property plugin "register" with
    | Throw e => (h, Throw e)
    | Normal (VFun id ps) =>
        let h1 :=
          with_log (log h ++ [EvCall (VFun id ps) plugin [PluginManager env]]) h in
        match call_function env id plugin [PluginManager env] (window h) with
        | (w, None) => (with_window w h1, Normal tt)
        | (w, Some e) => (with_window w h1, Throw e)
        end
    | Normal _ => (h, Throw TypeError)
    end.
Proof.
  unfold window_register, window_get, bind, gets, lift; cbn.
  destruct (get_property _ "register") as [r|e]; [|reflexivity].
  destruct r; reflexivity.
Qed.

Lemma window_register_frame (env : Foreign) (name : string) (h : Host) :
  head (fst (window_register env name h)) = head h /\
  log (fst (window_register env name h)) = log h ++ register_events env name h.
Proof.
  rewrite window_register_unfold; unfold register_events; cbn.
  destruct (get_property _ "register") as [r|e]; cbn;
    [|now rewrite app_nil_r].
  destruct r; cbn; try now rewrite app_nil_r.
  destruct (call_function env id _ _ _) as [w [e|]]; cbn; auto.
Qed.

Lemma window_register_ok (env : Foreign) (name : string) (h : Host) (v : value)
      (id : nat) (ps : list (string * value)) (w : gmap string value) :
  window h !! name = Some v ->
  get_property v "register" = Normal (VFun id ps) ->
  call_function env id v [PluginManager env] (window h) = (w, None) ->
  window_register env name h =
    (with_window w
       (with_log (log h ++ [EvCall (VFun id ps) v [PluginManager env]]) h),
     Normal tt).
Proof.
  intros Hv Hreg Hcall. rewrite window_register_unfold; cbn.
  rewrite Hv; cbn. rewrite Hreg, Hcall. reflexivity.
Qed.

(** ** [onProcess], step by step *)

Lemma onProcess_unfold (env : Foreign) (f : File) (h : Host) :
  onProcess env (f, h) =
    match file_xhrLoader f with
    | None =>
        ((with_data
            (Some {| el_language := "javascript"; el_type := "text/javascript";
                     el_defer := false; el_text := "" |})
            (with_state FILE_PROCESSING f), h),
         Throw TypeError)
    | Some xhr =>
        let el := script_element (responseText xhr) in
        let f1 := with_data (Some el) (with_state FILE_PROCESSING f) in
        match run_script env (responseText xhr) (window h) with
        | (w, Some e) =>
            ((f1, with_window w (with_head (head h ++ [el]) h)), Throw e)
        | (w, None) =>
            let h1 := with_window w (with_head (head h ++ [el]) h) in
            match window_register env (file_key f) h1 with
            | (h2, Throw e) => ((f1, h2), Throw e)
            | (h2, Normal _) => onProcessComplete (f1, h2)
            end
        end
    end.
Proof.
  unfold onProcess, bind, modify, update_data, this_responseText, gets,
    on_snd, head_appendChild; cbn -[window_register].
  destruct (file_xhrLoader f) as [xhr|]; [|reflexivity];
    cbn -[window_register].
  destruct (run_script env _ _) as [w [e|]]; cbn -[window_register];
    [reflexivity|].
  destruct (window_register env _ _) as [h2 [[]|e]]; reflexivity.
Qed.

Lemma onProcessComplete_unfold (f : File) (h : Host) :
  onProcessComplete (f, h) =
    ((with_state FILE_COMPLETE f,
      with_log (log h ++ [EvProcessComplete (file_key f)]) h),
     Normal tt).
Proof. reflexivity. Qed.

(** ** [onProcess]: the claims *)

(** C1.  For a unit whose transfer succeeded, when neither the
    materialization of the payload nor [register] throws, [onProcess]
    appends to the head of the document a script element with [defer] false
    whose text is the payload (evaluated on the spot), looks up the value
    bound at the unit's key in [window], invokes its [register] exactly once
    with the [PluginManager], and then, from state [FILE_PROCESSING], runs
    [onProcessComplete]: the state becomes [FILE_COMPLETE] and the driver is
    notified. *)
Theorem onProcess_activates_then_completes (env : Foreign)
    (f : File) (h : Host) (payload : string) (w1 w2 : gmap string value)
    (v : value) (id : nat) (ps : list (string * value)) :
  file_xhrLoader f = Some {| responseText := payload |} ->
  run_script env payload (window h) = (w1, None) ->
  w1 !! file_key f = Some v ->
  get_property v "register" = Normal (VFun id ps) ->
  call_function env id v [PluginManager env] w1 = (w2, None) ->
  let el := script_element payload in
  let processing := with_data (Some el) (with_state FILE_PROCESSING f) in
  let registered := EvCall (VFun id ps) v [PluginManager env] in
  el_defer el = false /\ el_text el = payload /\
  file_state processing = FILE_PROCESSING /\
  onProcess env (f, h) =
    onProcessComplete
      (processing,
       {| window := w2; head := head h ++ [el];
          log := log h ++ [registered] |}) /\
  onProcess env (f, h) =
    ((with_state FILE_COMPLETE processing,
      {| window := w2; head := head h ++ [el];
         log := log h ++ [registered; EvProcessComplete (file_key f)] |}),
     Normal tt).
Proof.
  intros Hxhr Hrun Hv Hreg Hcall el processing registered.
  assert (onProcess env (f, h) =
    onProcessComplete
      (processing,
       {| window := w2; head := head h ++ [el];
          log := log h ++ [registered] |})) as Hstep.
  { rewrite onProcess_unfold, Hxhr; cbn -[window_register onProcessComplete].
    rewrite Hrun.
    erewrite window_register_ok; [reflexivity| exact Hv | exact Hreg |].
    exact Hcall. }
  repeat split; try exact Hstep.
  rewrite Hstep, onProcessComplete_unfold; cbn.
  unfold with_log; cbn. now rewrite <- app_assoc.
Qed.

Lemma onProcess_activates_then_completes_witness :
  onProcess Sample.browser (Sample.fx1, Sample.empty_host) =
    ((with_state FILE_COMPLETE
        (with_data (Some (script_element "fx1 = class { static register () {} }"))
           (with_state FILE_PROCESSING Sample.fx1)),
      {| window := <["fx1" := Sample.plug]> ∅;
         head := [script_element "fx1 = class { static register () {} }"];
         log := [EvCall (VFun 2 []) Sample.plug [PluginManager Sample.browser];
                 EvProcessComplete "fx1"] |}),
     Normal tt).
Proof.
  apply (onProcess_activates_then_completes Sample.browser Sample.fx1
           Sample.empty_host "fx1 = class { static register () {} }"
           (<["fx1" := Sample.plug]> ∅) (<["fx1" := Sample.plug]> ∅)
           Sample.plug 2 []); reflexivity.
Defined.


(** C2, as the code has it.  [onProcess] catches nothing: when the
    materialization of the payload or the call of [register] throws, that very
    exception reaches the caller of [onProcess]; the unit stays in
    [FILE_PROCESSING], which is neither [FILE_ERRORED] nor [FILE_COMPLETE],
    and the driver is not notified of a completion. *)
Theorem onProcess_throw_leaves_processing (env : Foreign)
    (f : File) (h : Host) (payload : string) (e : exn) :
  file_xhrLoader f = Some {| responseText := payload |} ->
  (exists w, run_script env payload (window h) = (w, Some e)) \/
  (exists w h2,
     run_script env payload (window h) = (w, None) /\
     window_register env (file_key f)
       (with_window w (with_head (head h ++ [script_element payload]) h)) =
       (h2, Throw e)) ->
  exists h',
    onProcess env (f, h) =
      ((with_data (Some (script_element payload))
          (with_state FILE_PROCESSING f), h'),
       Throw e) /\
    file_state
      (with_data (Some (script_element payload))
         (with_state FILE_PROCESSING f)) = FILE_PROCESSING /\
    forall key, In (EvProcessComplete key) (log h') ->
                In (EvProcessComplete key) (log h).
Proof.
  intros Hxhr [[w Hrun] | (w & h2 & Hrun & Hreg)];
    rewrite onProcess_unfold, Hxhr; cbn -[window_register];
    rewrite Hrun.
  - eexists; repeat split. cbn; auto.
  - rewrite Hreg. eexists; repeat split.
    intros key Hin.
    pose proof (window_register_frame env (file_key f)
      (with_window w (with_head (head h ++ [script_element payload]) h)))
      as [_ Hlog].
    rewrite Hreg in Hlog; cbn in Hlog. rewrite Hlog in Hin.
    apply in_app_or in Hin as [Hin | Hin]; [exact Hin|].
    exfalso. unfold register_events in Hin.
    destruct (get_property _ _) as [[]|]; cbn in Hin;
      intuition discriminate.
Qed.

Lemma onProcess_throw_leaves_processing_witness :
  exists h',
    onProcess Sample.browser (Sample.fx2, Sample.empty_host) =
      ((with_data
          (Some (script_element "fx2 = class { static register () { throw } }"))
          (with_state FILE_PROCESSING Sample.fx2), h'),
       Throw Sample.failure).
Proof.
  destruct (onProcess_throw_leaves_processing Sample.browser Sample.fx2
              Sample.empty_host "fx2 = class { static register () { throw } }"
              Sample.failure) as (h' & Hrun & _).
  - reflexivity.
  - right. eexists. eexists. split; reflexivity.
  - exists h'. exact Hrun.
Defined.

(** C2, as the specification states it, fails: [register] throws and the
    unit is left in [FILE_PROCESSING], not in [FILE_ERRORED]; what is thrown is
    the raw value, which does not name the key. *)
Lemma onProcess_throw_not_errored :
  let outcome := onProcess Sample.browser (Sample.fx2, Sample.empty_host) in
  snd outcome = Throw (Thrown (VStr "register failed")) /\
  file_state (fst (fst outcome)) = FILE_PROCESSING /\
  file_state (fst (fst outcome)) <> FILE_ERRORED.
Proof. vm_compute. repeat split. discriminate. Qed.

(** C3, as the code has it.  [onProcess] does not look at the state of the
    unit: run on a unit in any state, [FILE_COMPLETE] and [FILE_ERRORED]
    included, it does exactly what it does on the same unit in any other
    state. *)
Theorem onProcess_ignores_state (env : Foreign)
    (f : File) (h : Host) (s : FileState) :
  onProcess env (with_state s f, h) = onProcess env (f, h).
Proof.
  rewrite !onProcess_unfold; cbn -[window_register onProcessComplete].
  destruct (file_xhrLoader f) as [xhr|]; [|reflexivity].
  destruct (run_script env _ _) as [w [e|]]; [reflexivity|].
  destruct (window_register env _ _) as [h2 [[]|e]]; reflexivity.
Qed.

(** C3, as the specification states it, fails: a second [onProcess] on a unit
    that is already [FILE_COMPLETE] invokes [register] a second time. *)
Lemma onProcess_twice_registers_twice :
  let registered :=
    EvCall (VFun 2 []) Sample.plug [PluginManager Sample.browser] in
  let first := onProcess Sample.browser (Sample.fx1, Sample.empty_host) in
  let second := onProcess Sample.browser (fst first) in
  file_state (fst (fst first)) = FILE_COMPLETE /\
  log (snd (fst first)) = [registered; EvProcessComplete "fx1"] /\
  log (snd (fst second)) =
    [registered; EvProcessComplete "fx1";
     registered; EvProcessComplete "fx1"].
Proof. vm_compute. repeat split. Qed.

(** ** The constructor, step by step *)

Lemma File_call_unfold (env : Foreign) (loader : nat) (cfg : FileConfig)
      (h : Host) :
  File_call env loader cfg h =
    let h1 := with_log (log h ++ [EvNewFile loader cfg]) h in
    match cfg_key cfg with
    | VStr key =>
        if String.eqb key "" then (h1, Throw ConfigurationError)
        else
          (h1,
           Normal
             {| file_loader := loader;
                file_type := cfg_type cfg;
                file_cache := cfg_cache cfg;
                file_key := key;
                file_url :=
                  match cfg_url cfg with
                  | VUndefined | VNull =>
                      VStr (key +:+ "." +:+ ToString env (cfg_extension cfg))
                  | url => url
                  end;
                file_xhrSettings := cfg_xhrSettings cfg;
                file_xhrLoader := None;
                file_state :=
                  if typeof_function (cfg_url cfg)
                  then FILE_COMPLETE else FILE_PENDING;
                file_data := None |})
    | _ => (h1, Throw ConfigurationError)
    end.
Proof.
  unfold File_call, bind, log_event, modify; cbn.
  destruct (cfg_key cfg); try reflexivity.
  destruct (String.eqb s ""); reflexivity.
Qed.

Lemma PluginFile_unfold (env : Foreign) (loader : nat)
      (key0 url0 xhr0 : value) (h : Host) :
  PluginFile env loader key0 url0 xhr0 h =
    let arguments := PluginFile_arguments key0 url0 xhr0 in
    let key := arguments.1.1.1 in
    let url := arguments.1.1.2 in
    if typeof_function url then
      match
        window_register env (ToString env key)
          (after_window_set env (ToString env key) url h)
      with
      | (h2, Normal _) => File_call env loader (fileConfig_of arguments) h2
      | (h2, Throw e) => (h2, Throw e)
      end
    else File_call env loader (fileConfig_of arguments) h.
Proof.
  unfold PluginFile.
  destruct (PluginFile_arguments key0 url0 xhr0) as [[[key url] xhr] ext].
  cbn -[window_register File_call].
  destruct (typeof_function url); [|reflexivity].
  unfold bind, window_set, log_event, modify, after_window_set, ret;
    cbn -[window_register File_call].
  destruct (takes_assignment env _); cbn -[window_register File_call];
    destruct (window_register env _ _) as [h2 [[]|e]]; reflexivity.
Qed.

Lemma File_call_log (env : Foreign) (loader : nat) (cfg : FileConfig)
      (h : Host) :
  log (fst (File_call env loader cfg h)) = log h ++ [EvNewFile loader cfg] /\
  window (fst (File_call env loader cfg h)) = window h /\
  head (fst (File_call env loader cfg h)) = head h.
Proof.
  rewrite File_call_unfold; cbn.
  destruct (cfg_key cfg); cbn; auto.
  destruct (String.eqb s ""); cbn; auto.
Qed.

(** The events of one construction: the only [File] call it can make is the
    one on the configuration built from the arguments in force, and a unit
    comes out only after that call. *)
Lemma PluginFile_log (env : Foreign) (loader : nat)
      (key0 url0 xhr0 : value) (h : Host) :
  exists evs,
    log (fst (PluginFile env loader key0 url0 xhr0 h)) = log h ++ evs /\
    (forall l cfg, In (EvNewFile l cfg) evs ->
       l = loader /\
       cfg = fileConfig_of (PluginFile_arguments key0 url0 xhr0)) /\
    (forall f, snd (PluginFile env loader key0 url0 xhr0 h) = Normal f ->
       In (EvNewFile loader
             (fileConfig_of (PluginFile_arguments key0 url0 xhr0))) evs /\
       file_type f = "script" /\ file_cache f = false).
Proof.
  rewrite PluginFile_unfold.
  set (arguments := PluginFile_arguments key0 url0 xhr0).
  cbn zeta.
  assert (forall h0 f,
            snd (File_call env loader (fileConfig_of arguments) h0) = Normal f ->
            file_type f = "script" /\ file_cache f = false) as Hfile.
  { intros h0 f. rewrite File_call_unfold.
    destruct arguments as [[[key url] xhr] ext]; cbn.
    destruct key; cbn; try discriminate.
    destruct (String.eqb s ""); cbn; [discriminate|].
    intros [= <-]. auto. }
  destruct (typeof_function arguments.1.1.2).
  - set (name := ToString env arguments.1.1.1).
    set (h1 := after_window_set env name arguments.1.1.2 h).
    pose proof (window_register_frame env name h1) as [_ Hreg].
    destruct (window_register env name h1) as [h2 [[]|e]]; cbn in Hreg.
    + pose proof (File_call_log env loader (fileConfig_of arguments) h2)
        as [Hlog _].
      exists ([EvSetGlobal name arguments.1.1.2] ++ register_events env name h1
              ++ [EvNewFile loader (fileConfig_of arguments)]).
      rewrite Hlog, Hreg. unfold h1 at 1; cbn.
      split; [now rewrite <- !app_assoc|].
      split.
      * intros l cfg [Hin | Hin]; [discriminate|].
        apply in_app_or in Hin as [Hin | [Hin | []]].
        -- unfold register_events in Hin.
           destruct (get_property _ _) as [[]|]; cbn in Hin;
             intuition discriminate.
        -- injection Hin as <- <-. auto.
      * intros f Hf. split; [|now apply (Hfile h2)].
        right. apply in_or_app. right. now left.
    + exists ([EvSetGlobal name arguments.1.1.2]
              ++ register_events env name h1).
      split; [cbv beta iota delta [fst]; rewrite Hreg;
              now rewrite <- !app_assoc|].
      split; [|discriminate].
      intros l cfg [Hin | Hin]; [discriminate|].
      unfold register_events in Hin.
      destruct (get_property _ _) as [[]|]; cbn in Hin;
        intuition discriminate.
  - pose proof (File_call_log env loader (fileConfig_of arguments) h)
      as [Hlog _].
    exists [EvNewFile loader (fileConfig_of arguments)].
    split; [exact Hlog|]. split.
    + intros l cfg [Hin | []]. injection Hin as <- <-. auto.
    + intros f Hf. split; [now left | now apply (Hfile h)].
Qed.


Lemma plugin_single (env : Foreign) (l : Loader) (key url xhr : value)
      (h : Host) :
  (forall items, key <> VArr items) ->
  plugin env key url xhr (l, h) =
    match PluginFile env (loader_id l) key url xhr h with
    | (h', Normal file) =>
        ((with_list (loader_list l ++ [file]) l, h'),
         Normal (with_list (loader_list l ++ [file]) l))
    | (h', Throw e) => ((l, h'), Throw e)
    end.
Proof.
  intros Hkey. unfold plugin.
  destruct key; try (now destruct (Hkey items));
    unfold bind, gets, on_snd, addFile, modify; cbn -[PluginFile];
    destruct (PluginFile env _ _ _ _ _) as [h' [file|e]]; reflexivity.
Qed.

(** ** The constructor: the claims *)





(** C5, as the code has it.  When a callable is given in place of the url,
    positionally or in a configuration object, the key is a non-empty string
    naming a slot of the global object that takes the assignment, and
    [register] returns, the constructor assigns the callable to
    [window[key]], invokes its [register] once with the [PluginManager], and
    hands the configuration to the base constructor; these are all the calls
    it makes, so nothing is asked of the transport, and the unit is
    [FILE_COMPLETE] as soon as it exists. *)
Theorem PluginFile_callable_activates_at_once (env : Foreign) (loader : nat)
    (key0 url0 xhr0 : value) (h : Host) (key : string) (id : nat)
    (ps : list (string * value)) (xhr ext : value) (rid : nat)
    (rps : list (string * value)) (w : gmap string value) :
  (key0 = VStr key /\ url0 = VFun id ps /\ xhr = xhr0 /\ ext = VStr "js") \/
  (IsPlainObject key0 = true /\
   GetFastValue key0 "key" VUndefined = VStr key /\
   GetFastValue key0 "url" VUndefined = VFun id ps /\
   xhr = GetFastValue key0 "xhrSettings" VUndefined /\
   ext = GetFastValue key0 "extension" (VStr "js")) ->
  key <> "" ->
  takes_assignment env key = true ->
  get_property (VFun id ps) "register" = Normal (VFun rid rps) ->
  call_function env rid (VFun id ps) [PluginManager env]
    (<[key := VFun id ps]> (window h)) = (w, None) ->
  exists file,
    PluginFile env loader key0 url0 xhr0 h =
      ({| window := w; head := head h;
          log := log h ++
                 [EvSetGlobal key (VFun id ps);
                  EvCall (VFun rid rps) (VFun id ps) [PluginManager env];
                  EvNewFile loader
                    {| cfg_type := "script"; cfg_cache := false;
                       cfg_extension := ext; cfg_responseType := "text";
                       cfg_key := VStr key; cfg_url := VFun id ps;
                       cfg_xhrSettings := xhr |}] |},
       Normal file) /\
    file_state file = FILE_COMPLETE /\
    file_key file = key /\
    file_url file = VFun id ps /\
    file_xhrLoader file = None.
Proof.
  intros Hform Hkey Htakes Hreg Hcall.
  assert (PluginFile_arguments key0 url0 xhr0 =
            (VStr key, VFun id ps, xhr, ext)) as Hargs.
  { unfold PluginFile_arguments.
    destruct Hform as [(-> & -> & -> & ->) | (Hplain & -> & -> & -> & ->)].
    - reflexivity.
    - now rewrite Hplain. }
  rewrite PluginFile_unfold, Hargs; cbn -[window_register File_call].
  unfold after_window_set. rewrite Htakes.
  erewrite window_register_ok; cycle 1.
  - cbn. apply lookup_insert_eq.
  - exact Hreg.
  - cbn. exact Hcall.
  - rewrite File_call_unfold; cbn.
    destruct (String.eqb key "") eqn:Hempty.
    + apply String.eqb_eq in Hempty. contradiction.
    + eexists. split.
      * unfold with_log, with_window; cbn. now rewrite <- !app_assoc.
      * repeat split.
Qed.

Lemma PluginFile_callable_activates_at_once_witness :
  (exists file,
     PluginFile Sample.browser 0 (VStr "fx3") Sample.plug VUndefined
       Sample.empty_host =
       ({| window := <["fx3" := Sample.plug]> ∅; head := [];
           log := [EvSetGlobal "fx3" Sample.plug;
                   EvCall (VFun 2 []) Sample.plug
                     [PluginManager Sample.browser];
                   EvNewFile 0
                     {| cfg_type := "script"; cfg_cache := false;
                        cfg_extension := VStr "js";
                        cfg_responseType := "text";
                        cfg_key := VStr "fx3"; cfg_url := Sample.plug;
                        cfg_xhrSettings := VUndefined |}] |},
        Normal file) /\
     file_state file = FILE_COMPLETE) /\
  (exists file h',
     PluginFile Sample.browser 0
       (VObj [("key", VStr "fx3"); ("url", Sample.plug)])
       (VStr "unused.js") VNull Sample.empty_host = (h', Normal file) /\
     window h' !! "fx3" = Some Sample.plug /\
     file_state file = FILE_COMPLETE).
Proof.
  split.
  - destruct (PluginFile_callable_activates_at_once Sample.browser 0
                (VStr "fx3") Sample.plug VUndefined Sample.empty_host
                "fx3" 1 [("register", VFun 2 [])] VUndefined (VStr "js")
                2 [] (<["fx3" := Sample.plug]> ∅))
      as (file & Hrun & Hstate & _).
    + left. repeat split.
    + discriminate.
    + reflexivity.
    + reflexivity.
    + reflexivity.
    + exists file. split; [exact Hrun | exact Hstate].
  - destruct (PluginFile_callable_activates_at_once Sample.browser 0
                (VObj [("key", VStr "fx3"); ("url", Sample.plug)])
                (VStr "unused.js") VNull Sample.empty_host
                "fx3" 1 [("register", VFun 2 [])] VUndefined (VStr "js")
                2 [] (<["fx3" := Sample.plug]> ∅))
      as (file & Hrun & Hstate & _).
    + right. repeat split.
    + discriminate.
    + reflexivity.
    + reflexivity.
    + reflexivity.
    + do 2 eexists. split; [exact Hrun|]. split; [reflexivity | exact Hstate].
Defined.

(** C5, as the specification states it, fails: the key "undefined" is a
    non-empty string and the class given as url has a [register] that works,
    yet the read-only slot does not take the class, a [TypeError] is thrown,
    [register] is never invoked and no unit comes out. *)
Lemma PluginFile_callable_read_only_slot :
  let outcome :=
    PluginFile Sample.browser 0 (VStr "undefined") Sample.plug VUndefined
      Sample.empty_host in
  typeof_function Sample.plug = true /\
  get_property Sample.plug "register" = Normal (VFun 2 []) /\
  snd outcome = Throw TypeError /\
  log (fst outcome) = [EvSetGlobal "undefined" Sample.plug] /\
  window (fst outcome) !! "undefined" = None.
Proof. vm_compute. repeat split. Qed.

(** Nothing in [onProcess] assigns a global: the [window] it leaves is the
    one the foreign code made. *)
Lemma onProcess_sets_no_global (env : Foreign) (f : File) (h : Host)
      (name : string) (v : value) :
  In (EvSetGlobal name v) (log (snd (fst (onProcess env (f, h))))) ->
  In (EvSetGlobal name v) (log h).
Proof.
  rewrite onProcess_unfold.
  destruct (file_xhrLoader f) as [xhr|]; [|now cbn].
  cbn -[window_register onProcessComplete].
  destruct (run_script env _ _) as [w [e|]]; [now cbn|].
  set (h1 := with_window w _).
  pose proof (window_register_frame env (file_key f) h1) as [_ Hlog].
  assert (forall evs, In (EvSetGlobal name v)
                        (log h1 ++ register_events env (file_key f) h1 ++ evs) ->
                      (forall ev, In ev evs -> ev <> EvSetGlobal name v) ->
                      In (EvSetGlobal name v) (log h)) as Hin.
  { intros evs Hin Hevs.
    apply in_app_or in Hin as [Hin | Hin]; [exact Hin|].
    apply in_app_or in Hin as [Hin | Hin].
    - unfold register_events in Hin.
      destruct (get_property _ _) as [[]|]; cbn in Hin;
        intuition discriminate.
    - now destruct (Hevs _ Hin). }
  destruct (window_register env _ h1) as [h2 [[]|e]]; cbn in Hlog |- *.
  - rewrite Hlog, <- app_assoc. intros H. apply (Hin _ H).
    intros ev [<- | []]. discriminate.
  - rewrite Hlog. intros H. apply (Hin []); [now rewrite app_nil_r|].
    intros ev [].
Qed.

(** C6, as the code has it.  There is no collision check.  On the callable
    path, when the slot named by the key takes the assignment, the constructor
    assigns [window[key]] whatever the slot held: the outcome of the
    construction is the same whether the slot was free or bound to any other
    value.  On the fetch path [onProcess] itself never assigns a global. *)
Theorem PluginFile_overwrites_slot (env : Foreign) (loader : nat)
    (key0 url0 xhr0 : value) (h : Host) (old : value) :
  typeof_function (PluginFile_arguments key0 url0 xhr0).1.1.2 = true ->
  let name := ToString env (PluginFile_arguments key0 url0 xhr0).1.1.1 in
  takes_assignment env name = true ->
  PluginFile env loader key0 url0 xhr0
    (with_window (<[name := old]> (window h)) h) =
  PluginFile env loader key0 url0 xhr0
    (with_window (delete name (window h)) h) /\
  forall f k v,
    In (EvSetGlobal k v) (log (snd (fst (onProcess env (f, h))))) ->
    In (EvSetGlobal k v) (log h).
Proof.
  intros Hfun name Htakes.
  split; [|intros f k v; apply onProcess_sets_no_global].
  rewrite !PluginFile_unfold. cbn zeta. fold name. rewrite Hfun.
  unfold after_window_set. rewrite Htakes.
  unfold with_window, with_log; cbn.
  now rewrite insert_insert_eq, insert_delete_eq.
Qed.

Lemma PluginFile_overwrites_slot_witness :
  PluginFile Sample.browser 0 (VStr "fx3") Sample.plug VUndefined
    (with_window (<["fx3" := VStr "taken"]> ∅) Sample.empty_host) =
  PluginFile Sample.browser 0 (VStr "fx3") Sample.plug VUndefined
    (with_window (delete "fx3" ∅) Sample.empty_host).
Proof.
  apply (PluginFile_overwrites_slot Sample.browser 0 (VStr "fx3") Sample.plug
           VUndefined Sample.empty_host (VStr "taken")); reflexivity.
Defined.

(** C6, as the specification states it, fails: the slot [fx3] holds an
    unrelated value, the constructor reports no error and the slot holds the
    plugin afterwards. *)
Lemma PluginFile_collision_unreported :
  let taken := with_window (<["fx3" := VStr "taken"]> ∅) Sample.empty_host in
  let outcome :=
    PluginFile Sample.browser 0 (VStr "fx3") Sample.plug VUndefined taken in
  window taken !! "fx3" = Some (VStr "taken") /\
  (exists file, snd outcome = Normal file) /\
  window (fst outcome) !! "fx3" = Some Sample.plug.
Proof. vm_compute. repeat split. eexists. reflexivity. Qed.

Lemma GetFastValue_absent (source : value) (name : string) (d : value) :
  GetFastValue source name VUndefined = VUndefined ->
  GetFastValue source name d = d.
Proof.
  unfold GetFastValue. destruct source; auto.
  destruct (lookup_prop props name) as [v|]; auto.
  destruct v; cbn; auto; discriminate.
Qed.

Lemma GetFastValue_present (source : value) (name : string) (d v : value) :
  GetFastValue source name VUndefined = v -> v <> VUndefined ->
  GetFastValue source name d = v.
Proof.
  unfold GetFastValue. destruct source; try congruence.
  destruct (lookup_prop props name) as [x|]; try congruence.
  destruct x; cbn; congruence.
Qed.

(** C7.  When the key in force is a non-empty string and no url is given, the
    unit's url is the key, a dot and the extension; the extension is "js"
    unless the key argument is a configuration object with an [extension]
    field, which then replaces it.  The unit starts [FILE_PENDING]. *)
Theorem PluginFile_derives_url (env : Foreign) (loader : nat)
    (key0 url0 xhr0 : value) (h : Host) (key : string) (xhr ext : value) :
  PluginFile_arguments key0 url0 xhr0 = (VStr key, VUndefined, xhr, ext) ->
  key <> "" ->
  exists file,
    PluginFile env loader key0 url0 xhr0 h =
      (with_log
         (log h ++
          [EvNewFile loader (fileConfig_of (VStr key, VUndefined, xhr, ext))])
         h,
       Normal file) /\
    file_state file = FILE_PENDING /\
    file_url file = VStr (key +:+ "." +:+ ToString env ext) /\
    (GetFastValue key0 "extension" VUndefined = VUndefined ->
     file_url file = VStr (key +:+ ".js")) /\
    (forall e : string,
       IsPlainObject key0 = true ->
       GetFastValue key0 "extension" VUndefined = VStr e ->
       file_url file = VStr (key +:+ "." +:+ e)).
Proof.
  intros Hargs Hkey.
  rewrite PluginFile_unfold, Hargs; cbn -[File_call].
  rewrite File_call_unfold; cbn.
  destruct (String.eqb key "") eqn:Hempty.
  { apply String.eqb_eq in Hempty. contradiction. }
  eexists. split; [reflexivity|]. cbn.
  unfold PluginFile_arguments in Hargs.
  repeat split.
  - intros Habsent. destruct (IsPlainObject key0).
    + rewrite (GetFastValue_absent _ _ (VStr "js") Habsent) in Hargs.
      now injection Hargs as _ _ _ <-.
    + now injection Hargs as _ _ _ <-.
  - intros e Hplain He. rewrite Hplain in Hargs.
    rewrite (GetFastValue_present _ _ (VStr "js") (VStr e) He) in Hargs
      by discriminate.
    now injection Hargs as _ _ _ <-.
Qed.

Lemma PluginFile_derives_url_witness :
  exists file,
    PluginFile Sample.browser 0 (VObj [("key", VStr "alien")]) VUndefined
      VUndefined Sample.empty_host =
      (with_log
         [EvNewFile 0
            (fileConfig_of (VStr "alien", VUndefined, VUndefined, VStr "js"))]
         Sample.empty_host,
       Normal file) /\
    file_url file = VStr "alien.js".
Proof.
  destruct (PluginFile_derives_url Sample.browser 0
              (VObj [("key", VStr "alien")]) VUndefined VUndefined
              Sample.empty_host "alien" VUndefined (VStr "js"))
    as (file & Hrun & _ & Hurl & _).
  - reflexivity.
  - discriminate.
  - exists file. split; [exact Hrun | exact Hurl].
Defined.

(** ** The [plugin] method: the claims *)

Lemma plugin_each_constructs (env : Foreign) (id : nat) (items : list value)
      (files : list File) (h h' : Host) :
  constructs env id h items files h' ->
  forall l : Loader,
    loader_id l = id ->
    plugin_each env items (l, h) =
      ((with_list (loader_list l ++ files) l, h'), Normal tt).
Proof.
  induction 1 as [h | h h1 h2 config file configs files Hone _ IH];
    intros l Hid.
  - cbn. unfold ret, with_list. rewrite app_nil_r. now destruct l.
  - cbn [plugin_each].
    unfold bind at 1, gets at 1; cbn -[PluginFile plugin_each].
    unfold bind at 1, on_snd at 1; cbn -[PluginFile plugin_each].
    rewrite Hid, Hone. cbn [fst snd].
    rewrite IH by (cbn; exact Hid).
    unfold with_list; cbn. now rewrite <- app_assoc.
Qed.

Lemma constructs_length (env : Foreign) (id : nat) (items : list value)
      (files : list File) (h h' : Host) :
  constructs env id h items files h' -> length files = length items.
Proof. induction 1; cbn; congruence. Qed.

(** C8.  Given an array of N configuration objects, each of which the
    constructor accepts in its turn, the [plugin] method builds N units, one
    per object and from that object alone, adds each to the loader with
    [addFile] in the order of the array, and answers the loader. *)
Theorem plugin_array_queues_each (env : Foreign) (l : Loader)
    (configs : list value) (url xhr : value) (files : list File)
    (h h' : Host) :
  constructs env (loader_id l) h configs files h' ->
  plugin env (VArr configs) url xhr (l, h) =
    ((with_list (loader_list l ++ files) l, h'),
     Normal (with_list (loader_list l ++ files) l)) /\
  length files = length configs.
Proof.
  intros Hall. split; [|exact (constructs_length _ _ _ _ _ _ Hall)].
  unfold plugin, bind.
  now rewrite (plugin_each_constructs _ _ _ _ _ _ Hall l eq_refl).
Qed.

Lemma plugin_array_queues_each_witness :
  exists a b h',
    plugin Sample.browser
      (VArr [VObj [("key", VStr "a")];
             VObj [("key", VStr "b"); ("url", VStr "plugins/b.min.js")]])
      VUndefined VUndefined
      ({| loader_id := 0; loader_list := [] |}, Sample.empty_host) =
      (({| loader_id := 0; loader_list := [a; b] |}, h'),
       Normal {| loader_id := 0; loader_list := [a; b] |}) /\
    file_url a = VStr "a.js" /\ file_url b = VStr "plugins/b.min.js".
Proof.
  do 3 eexists. split.
  - apply (plugin_array_queues_each Sample.browser
             {| loader_id := 0; loader_list := [] |}).
    eapply constructs_cons; [vm_compute; reflexivity|].
    eapply constructs_cons; [vm_compute; reflexivity|].
    apply constructs_nil.
  - split; reflexivity.
Defined.

(** C9.  Whatever the arguments (positional, a configuration object, a
    callable in place of the url), the only configuration the constructor
    hands to the base [File] constructor has type "script", cache [false] and
    responseType "text"; and every unit that comes out went through that
    call. *)
Theorem PluginFile_fileConfig_is_script (env : Foreign) (loader : nat)
    (key url xhr : value) (h : Host) :
  exists evs,
    log (fst (PluginFile env loader key url xhr h)) = log h ++ evs /\
    (forall l cfg,
       In (EvNewFile l cfg) evs ->
       cfg_type cfg = "script" /\ cfg_cache cfg = false /\
       cfg_responseType cfg = "text") /\
    (forall file,
       snd (PluginFile env loader key url xhr h) = Normal file ->
       exists cfg, In (EvNewFile loader cfg) evs).
Proof.
  destruct (PluginFile_log env loader key url xhr h)
    as (evs & Hlog & Honly & Hsome).
  exists evs. split; [exact Hlog|]. split.
  - intros l cfg Hin. destruct (Honly l cfg Hin) as [_ ->].
    now destruct (PluginFile_arguments key url xhr) as [[[? ?] ?] ?].
  - intros file Hfile. destruct (Hsome file Hfile) as [Hin _]. eauto.
Qed.

(** C10.  The extension the constructor hands to the base [File]
    constructor is "js" whenever the key argument is not a plain object; it
    differs from "js" only when the key argument is a plain object that has
    that very value in its [extension] field. *)
Theorem PluginFile_extension_override (env : Foreign) (loader : nat)
    (key url xhr : value) (h : Host) :
  exists evs,
    log (fst (PluginFile env loader key url xhr h)) = log h ++ evs /\
    (forall file,
       snd (PluginFile env loader key url xhr h) = Normal file ->
       exists cfg, In (EvNewFile loader cfg) evs) /\
    (forall l cfg,
       In (EvNewFile l cfg) evs ->
       (IsPlainObject key = false -> cfg_extension cfg = VStr "js") /\
       (cfg_extension cfg <> VStr "js" ->
        exists props,
          key = VObj props /\
          lookup_prop props "extension" = Some (cfg_extension cfg))).
Proof.
  destruct (PluginFile_log env loader key url xhr h)
    as (evs & Hlog & Honly & Hsome).
  exists evs. split; [exact Hlog|]. split.
  - intros file Hfile. destruct (Hsome file Hfile) as [Hin _]. eauto.
  - intros l cfg Hin. destruct (Honly l cfg Hin) as [_ ->].
    unfold PluginFile_arguments.
    destruct key; cbn; try (split; [reflexivity | congruence]).
    split; [discriminate|].
    intros Hext. exists props. split; [reflexivity|].
    destruct (lookup_prop props "extension") as [v|]; [|congruence].
    destruct v; cbn in *; congruence.
Qed.

(** * Further properties of the code *)

(** ** [onProcess] *)

(** X1.  [onProcess] on a unit whose transfer has not completed (no request
    object) throws a [TypeError] on reading the response text: by then the
    unit is [FILE_PROCESSING] and holds a script element without text, while
    the document, the globals and the log are untouched. *)
Theorem onProcess_before_transfer (env : Foreign) (f : File) (h : Host) :
  file_xhrLoader f = None ->
  onProcess env (f, h) =
    ((with_data (Some (script_element ""))
        (with_state FILE_PROCESSING f), h),
     Throw TypeError).
Proof. intros Hxhr. now rewrite onProcess_unfold, Hxhr. Qed.

Lemma onProcess_before_transfer_witness :
  snd (onProcess Sample.browser
         (with_xhrLoader None Sample.fx1, Sample.empty_host)) =
    Throw TypeError.
Proof.
  now rewrite (onProcess_before_transfer Sample.browser
                 (with_xhrLoader None Sample.fx1) Sample.empty_host eq_refl).
Defined.

(** X2.  When the evaluated script leaves nothing under the unit's key,
    [onProcess] throws a [TypeError] after the fact: the script element is
    already among the children of the head and its effects on the globals
    stay, [register] is not called, the driver is not notified and the unit
    stays [FILE_PROCESSING]. *)
Theorem onProcess_key_unbound (env : Foreign) (f : File) (h : Host)
    (payload : string) (w : gmap string value) :
  file_xhrLoader f = Some {| responseText := payload |} ->
  run_script env payload (window h) = (w, None) ->
  w !! file_key f = None ->
  onProcess env (f, h) =
    ((with_data (Some (script_element payload))
        (with_state FILE_PROCESSING f),
      {| window := w; head := head h ++ [script_element payload];
         log := log h |}),
     Throw TypeError).
Proof.
  intros Hxhr Hrun Hkey.
  rewrite onProcess_unfold, Hxhr; cbn -[window_register].
  rewrite Hrun, window_register_unfold; cbn. now rewrite Hkey.
Qed.

Lemma onProcess_key_unbound_witness :
  snd (onProcess Sample.browser
         (Sample.loaded "other" "fx1 = class { static register () {} }",
          Sample.empty_host)) = Throw TypeError.
Proof.
  now rewrite (onProcess_key_unbound Sample.browser
                 (Sample.loaded "other" "fx1 = class { static register () {} }")
                 Sample.empty_host "fx1 = class { static register () {} }"
                 (<["fx1" := Sample.plug]> ∅) eq_refl eq_refl eq_refl).
Defined.

(** X3.  On a loaded unit, before [onProcess] does anything else it appends
    one script element carrying the payload to the head, keeps it in
    [this.data] and has the unit [FILE_PROCESSING]: that is how things stand
    when a step of [onProcess] throws, and that is what [onProcessComplete]
    receives when none does. *)
Theorem onProcess_materializes_once (env : Foreign) (f : File) (h : Host)
    (payload : string) :
  file_xhrLoader f = Some {| responseText := payload |} ->
  let processing :=
    with_data (Some (script_element payload))
      (with_state FILE_PROCESSING f) in
  exists h',
    head h' = head h ++ [script_element payload] /\
    ((exists e, onProcess env (f, h) = ((processing, h'), Throw e)) \/
     onProcess env (f, h) = onProcessComplete (processing, h')).
Proof.
  intros Hxhr processing. unfold processing.
  rewrite onProcess_unfold, Hxhr; cbn -[window_register onProcessComplete].
  destruct (run_script env _ _) as [w [e|]].
  { eexists. split; [|left; eexists; reflexivity]. reflexivity. }
  set (h1 := with_window w _).
  pose proof (window_register_frame env (file_key f) h1) as [Hhead _].
  destruct (window_register env _ h1) as [h2 [[]|e]]; cbn in Hhead;
    exists h2; (split; [exact Hhead|]).
  - right. reflexivity.
  - left. eexists. reflexivity.
Qed.

Lemma onProcess_materializes_once_witness :
  exists h',
    head h' = [script_element "fx1 = class { static register () {} }"] /\
    onProcess Sample.browser (Sample.fx1, Sample.empty_host) =
      onProcessComplete
        (with_data
           (Some (script_element "fx1 = class { static register () {} }"))
           (with_state FILE_PROCESSING Sample.fx1), h').
Proof.
  destruct (onProcess_materializes_once Sample.browser Sample.fx1
              Sample.empty_host "fx1 = class { static register () {} }"
              eq_refl) as (h' & Hhead & [[e He] | Hdone]).
  - exfalso. vm_compute in He. discriminate He.
  - exists h'. split; [exact Hhead | exact Hdone].
Defined.

(** X4.  Up to its last line [onProcess] calls at most one foreign function,
    the [register] found under the key: when one of its steps throws, at most
    that call has been made; and [onProcessComplete] is reached only after
    exactly that one call. *)
Theorem onProcess_calls_at_most_once (env : Foreign) (f : File) (h : Host) :
  exists f1 h1 evs,
    log h1 = log h ++ evs /\
    List.filter is_completion evs = [] /\
    ((exists e, onProcess env (f, h) = ((f1, h1), Throw e)) /\
     length (List.filter is_call evs) <= 1 \/
     onProcess env (f, h) = onProcessComplete (f1, h1) /\
     length (List.filter is_call evs) = 1).
Proof.
  assert (forall (f1 : File) (h1 : Host) (e : exn),
            onProcess env (f, h) = ((f1, h1), Throw e) ->
            log h1 = log h ->
            exists f1 h1 evs,
              log h1 = log h ++ evs /\
              List.filter is_completion evs = [] /\
              ((exists e, onProcess env (f, h) = ((f1, h1), Throw e)) /\
               length (List.filter is_call evs) <= 1 \/
               onProcess env (f, h) = onProcessComplete (f1, h1) /\
               length (List.filter is_call evs) = 1)) as Hquiet.
  { intros f1 h1 e Hrun Hlog. exists f1, h1, [].
    rewrite app_nil_r. split; [exact Hlog|]. split; [reflexivity|].
    left. split; [now exists e | cbn; lia]. }
  revert Hquiet. rewrite onProcess_unfold. intros Hquiet.
  destruct (file_xhrLoader f) as [xhr|];
    [|now eapply Hquiet].
  cbn -[window_register onProcessComplete] in *.
  destruct (run_script env _ _) as [w [e|]]; [now eapply Hquiet|].
  set (h1 := with_window w _) in *.
  pose proof (window_register_frame env (file_key f) h1) as [_ Hlog].
  pose proof (window_register_unfold env (file_key f) h1) as Hreg.
  unfold register_events in Hlog. cbn zeta in Hreg.
  destruct (get_property _ "register") as [r|e0].
  2:{ rewrite Hreg in *. now eapply Hquiet. }
  destruct r; try (rewrite Hreg in *; now eapply Hquiet).
  clear Hquiet Hreg.
  destruct (window_register env _ h1) as [h2 [[]|e]]; cbn in Hlog.
  - do 2 eexists. eexists. split; [exact Hlog|]. split; [reflexivity|].
    right. split; reflexivity.
  - do 2 eexists. eexists. split; [exact Hlog|]. split; [reflexivity|].
    left. split; [eexists; reflexivity | cbn; lia].
Qed.

(** ** The constructor *)

(** X5.  The constructor never touches the document; and when the url in
    force is not a callable it leaves the globals alone and its one and only
    call is the call of the base [File] constructor. *)
Theorem PluginFile_frame (env : Foreign) (loader : nat)
    (key url xhr : value) (h : Host) :
  head (fst (PluginFile env loader key url xhr h)) = head h /\
  (typeof_function (PluginFile_arguments key url xhr).1.1.2 = false ->
   fst (PluginFile env loader key url xhr h) =
     with_log
       (log h ++
        [EvNewFile loader (fileConfig_of (PluginFile_arguments key url xhr))])
       h).
Proof.
  rewrite PluginFile_unfold. cbn zeta.
  set (arguments := PluginFile_arguments key url xhr).
  assert (forall h0,
            fst (File_call env loader (fileConfig_of arguments) h0) =
              with_log (log h0 ++ [EvNewFile loader (fileConfig_of arguments)])
                h0) as Hfile.
  { intros h0. rewrite File_call_unfold; cbn.
    destruct (cfg_key _); try reflexivity.
    destruct (String.eqb s ""); reflexivity. }
  destruct (typeof_function arguments.1.1.2).
  - split; [|discriminate].
    set (name := ToString env arguments.1.1.1).
    pose proof (window_register_frame env name
                  (after_window_set env name arguments.1.1.2 h)) as [Hhead _].
    destruct (window_register env name _) as [h2 [[]|e]]; cbn in Hhead.
    + now rewrite Hfile.
    + exact Hhead.
  - rewrite Hfile. split; [reflexivity | auto].
Qed.



(** X7.  With a configuration object, or an array, as first argument the
    [plugin] method ignores the url and xhrSettings arguments altogether. *)
Theorem plugin_ignores_positional_arguments (env : Foreign)
    (key url xhr url' xhr' : value) (l : Loader) (h : Host) :
  IsPlainObject key = true \/ (exists items, key = VArr items) ->
  plugin env key url xhr (l, h) = plugin env key url' xhr' (l, h).
Proof.
  intros [Hplain | [items ->]]; [|reflexivity].
  destruct key; try discriminate.
  rewrite !plugin_single by discriminate.
  now rewrite !PluginFile_unfold.
Qed.

Lemma plugin_ignores_positional_arguments_witness :
  plugin Sample.browser (VObj [("key", VStr "a")]) (VStr "ignored.js")
    VNull ({| loader_id := 0; loader_list := [] |}, Sample.empty_host) =
  plugin Sample.browser (VObj [("key", VStr "a")]) VUndefined VUndefined
    ({| loader_id := 0; loader_list := [] |}, Sample.empty_host).
Proof.
  apply (plugin_ignores_positional_arguments Sample.browser
           (VObj [("key", VStr "a")])).
  left. reflexivity.
Defined.

(** ** The [plugin] method *)

Lemma plugin_each_cons (env : Foreign) (item : value) (rest : list value)
      (l : Loader) (h : Host) :
  plugin_each env (item :: rest) (l, h) =
    match PluginFile env (loader_id l) item VUndefined VUndefined h with
    | (h1, Normal file) =>
        plugin_each env rest (with_list (loader_list l ++ [file]) l, h1)
    | (h1, Throw e) => ((l, h1), Throw e)
    end.
Proof.
  cbn [plugin_each]. unfold bind, gets, on_snd, addFile, modify;
    cbn -[PluginFile plugin_each].
  destruct (PluginFile env _ _ _ _ _) as [h1 [file|e]]; reflexivity.
Qed.

Lemma plugin_each_appends (env : Foreign) (items : list value) :
  forall (l : Loader) (h : Host),
  exists files,
    fst (fst (plugin_each env items (l, h))) =
      with_list (loader_list l ++ files) l /\
    length files <= length items /\
    (snd (plugin_each env items (l, h)) = Normal tt ->
     length files = length items).
Proof.
  induction items as [|item rest IH]; intros l h.
  - exists []. cbn. rewrite app_nil_r. now destruct l.
  - rewrite plugin_each_cons.
    destruct (PluginFile env (loader_id l) item VUndefined VUndefined h)
      as [h1 [file|e]].
    + destruct (IH (with_list (loader_list l ++ [file]) l) h1)
        as (files & Hlist & Hle & Hall).
      exists (file :: files). rewrite Hlist.
      unfold with_list; cbn. rewrite <- app_assoc.
      split; [reflexivity|]. split; [lia|]. intros H. now rewrite Hall.
    + exists []. cbn. rewrite app_nil_r.
      split; [now destruct l|]. split; [lia | discriminate].
Qed.

(** X8.  Whatever its arguments and however it ends, the [plugin] method
    hands to [addFile] at most one unit per configuration, one after the
    other, and exactly one per configuration when it returns; it does nothing
    else to the loader, and what it returns is the loader itself.  (The list
    of the loader stands for the units handed to [addFile], in order.) *)
Theorem plugin_only_appends (env : Foreign) (key url xhr : value)
    (l : Loader) (h : Host) :
  exists files,
    fst (fst (plugin env key url xhr (l, h))) =
      with_list (loader_list l ++ files) l /\
    length files <= requested key /\
    (forall l', snd (plugin env key url xhr (l, h)) = Normal l' ->
       l' = with_list (loader_list l ++ files) l /\
       length files = requested key).
Proof.
  assert ((forall items, key <> VArr items) ->
    exists files,
      fst (fst (plugin env key url xhr (l, h))) =
        with_list (loader_list l ++ files) l /\
      length files <= 1 /\
      (forall l', snd (plugin env key url xhr (l, h)) = Normal l' ->
         l' = with_list (loader_list l ++ files) l /\ length files = 1))
    as Hsingle.
  { intros Hnot. rewrite plugin_single by exact Hnot.
    destruct (PluginFile env _ _ _ _ _) as [h' [file|e]].
    - exists [file]. cbn. split; [reflexivity|]. split; [lia|].
      intros l' [= <-]. auto.
    - exists []. cbn. rewrite app_nil_r.
      split; [now destruct l|]. split; [lia | discriminate]. }
  destruct key; try (apply Hsingle; discriminate).
  destruct (plugin_each_appends env items l h) as (files & Hlist & Hle & Hall).
  exists files. unfold plugin, bind, gets.
  destruct (plugin_each env items (l, h)) as [[l1 h1] [[]|e]]; cbn in *.
  - split; [exact Hlist|]. split; [exact Hle|].
    intros l' [= <-]. auto.
  - split; [exact Hlist|]. split; [exact Hle | discriminate].
Qed.

(** X9.  When an element of the array fails to construct, the exception
    leaves the [plugin] method at once: the units built before it are in the
    loader's list, the elements after it are never looked at. *)
Theorem plugin_array_stops_at_failure (env : Foreign) (l : Loader)
    (before after : list value) (bad url xhr : value) (files : list File)
    (h h1 h2 : Host) (e : exn) :
  constructs env (loader_id l) h before files h1 ->
  PluginFile env (loader_id l) bad VUndefined VUndefined h1 = (h2, Throw e) ->
  plugin env (VArr (before ++ bad :: after)) url xhr (l, h) =
    ((with_list (loader_list l ++ files) l, h2), Throw e).
Proof.
  intros Hall Hbad.
  assert (plugin_each env (before ++ bad :: after) (l, h) =
            ((with_list (loader_list l ++ files) l, h2), Throw e)) as Heach.
  { remember (loader_id l) as id eqn:Hid. symmetry in Hid.
    revert l Hid.
    induction Hall as [h | h h0 h1 config file configs files Hone _ IH];
      intros l Hid.
    - cbn [app]. rewrite plugin_each_cons, Hid, Hbad.
      unfold with_list. rewrite app_nil_r. now destruct l.
    - cbn [app]. rewrite plugin_each_cons, Hid, Hone.
      rewrite (IH Hbad) by (cbn; exact Hid).
      unfold with_list; cbn. now rewrite <- app_assoc. }
  unfold plugin, bind. now rewrite Heach.
Qed.

Lemma plugin_array_stops_at_failure_witness :
  exists a h',
    plugin Sample.browser
      (VArr [VObj [("key", VStr "a")]; VObj [("url", VStr "nokey.js")];
             VObj [("key", VStr "c")]])
      VUndefined VUndefined
      ({| loader_id := 0; loader_list := [] |}, Sample.empty_host) =
      (({| loader_id := 0; loader_list := [a] |}, h'),
       Throw ConfigurationError) /\
    file_key a = "a".
Proof.
  do 2 eexists. split.
  - eapply (plugin_array_stops_at_failure Sample.browser
             {| loader_id := 0; loader_list := [] |}
             [VObj [("key", VStr "a")]] [VObj [("key", VStr "c")]]
             (VObj [("url", VStr "nokey.js")])).
    + eapply constructs_cons; [vm_compute; reflexivity|].
      apply constructs_nil.
    + vm_compute. reflexivity.
  - reflexivity.
Defined.
